(** * The runtime bootstrap of custom-js-runtime: console shim and GPU bridge

    A shallow embedding of the extension's ESM entry point (the script
    that installs [globalThis.console], [globalThis.__gpuCallbacks] and
    [globalThis.gpu]) and of the ECMAScript built-ins it calls
    ([JSON.stringify], [Array.prototype.map], [Array.prototype.join]),
    followed by the properties the specification states about them. *)

From Stdlib Require Import String Ascii List Bool Arith ZArith Lia Floats DecimalString.
Import ListNotations.
Local Open Scope list_scope.
Local Open Scope string_scope.

(** ** ECMAScript values *)

(** Objects live in a heap and are named by their location, so that two
    references may name the same object and an object may reach itself. *)
Definition loc := nat.

(** The language values a script can pass to the bootstrap's functions.
    Numbers are IEEE 754 binary64, strings are sequences of code units
    (here the code units below 256).  A function is identified by the
    index of its code. *)
Inductive value : Type :=
| Undefined
| Null
| Boolean (b : bool)
| Number (x : float)
| String_ (s : string)
| BigInt (z : Z)
| Symbol (description : string)
| Function (code : nat)
| Object (l : loc).

(** What a location holds: an array with its elements in index order, or
    an ordinary object with its enumerable own string-keyed properties in
    enumeration order.  Objects are plain data: a property is a value,
    not an accessor, and no object has a [toJSON] method, so serializing
    one runs no code of the script. *)
Inductive object : Type :=
| ArrayObj (elements : list value)
| PlainObj (properties : list (string * value)).

Definition Heap := list object.

(** Reading a location.  The allocated objects are the entries of the
    list; every other location holds an object without properties, so
    that each heap denotes an object graph. *)
Definition heap_get (h : Heap) (l : loc) : object :=
  nth l h (PlainObj []).

(** What a script may throw or a built-in or host operation may raise. *)
Inductive exception : Type :=
| TypeError (message : string)
| HostOperationError (message : string)
| InvalidHandleError (message : string)
| ScriptError (thrown : value).

(** A completion: normal with a value, or abrupt with what was thrown. *)
Inductive completion (A : Type) : Type :=
| Normal (a : A)
| Throw (e : exception).
Arguments Normal {A} a.
Arguments Throw {A} e.

(** ** JSON.stringify (ECMA-262, 25.5.2), without replacer and gap *)

Module JSON.

Definition quotation_mark : ascii := "034"%char.
Definition reverse_solidus : ascii := "\"%char.

Definition hex_digit (n : nat) : ascii :=
  nth n ["0"; "1"; "2"; "3"; "4"; "5"; "6"; "7"; "8"; "9";
         "a"; "b"; "c"; "d"; "e"; "f"]%char "0"%char.

(** UnicodeEscape of a code unit below 256: [\u00] and two hex digits. *)
Definition UnicodeEscape (n : nat) : string :=
  String reverse_solidus
    ("u00" ++ String (hex_digit (n / 16)) (String (hex_digit (n mod 16)) "")).

(** One code unit of QuoteJSONString: the seven two-character escapes of
    the table, a Unicode escape below U+0020, the unit itself otherwise. *)
Definition quote_code_unit (c : ascii) : string :=
  let n := nat_of_ascii c in
  if (n =? 8)%nat then String reverse_solidus "b"
  else if (n =? 9)%nat then String reverse_solidus "t"
  else if (n =? 10)%nat then String reverse_solidus "n"
  else if (n =? 12)%nat then String reverse_solidus "f"
  else if (n =? 13)%nat then String reverse_solidus "r"
  else if (n =? 34)%nat then String reverse_solidus (String quotation_mark "")
  else if (n =? 92)%nat then String reverse_solidus (String reverse_solidus "")
  else if (n <? 32)%nat then UnicodeEscape n
  else String c "".

Fixpoint quote_code_units (s : string) : string :=
  match s with
  | EmptyString => ""
  | String c s' => quote_code_unit c ++ quote_code_units s'
  end.

Definition QuoteJSONString (s : string) : string :=
  String quotation_mark (quote_code_units s ++ String quotation_mark "").

Definition circular_message : string := "Converting circular structure to JSON".
Definition bigint_message : string := "Do not know how to serialize a BigInt".

Section Serialize.

(** The recursive call of SerializeJSONProperty, with the stack already
    extended: [None] when the traversal budget is used up, else the
    completion, whose value is a string or undefined. *)
Variable ser : value -> option (completion (option string)).

(** The loop of SerializeJSONArray: an element that serializes to
    undefined is written as [null]; the first abrupt completion ends
    the loop. *)
Fixpoint serialize_elements (elems : list value)
  : option (completion (list string)) :=
  match elems with
  | [] => Some (Normal [])
  | v :: rest =>
      match ser v with
      | None => None
      | Some (Throw e) => Some (Throw e)
      | Some (Normal strP) =>
          match serialize_elements rest with
          | None => None
          | Some (Throw e) => Some (Throw e)
          | Some (Normal partial) =>
              Some (Normal (match strP with
                            | Some s => s
                            | None => "null"
                            end :: partial))
          end
      end
  end.

(** The loop of SerializeJSONObject: a property that serializes to
    undefined is left out; the others become [quoted key : value]. *)
Fixpoint serialize_properties (props : list (string * value))
  : option (completion (list string)) :=
  match props with
  | [] => Some (Normal [])
  | (P, v) :: rest =>
      match ser v with
      | None => None
      | Some (Throw e) => Some (Throw e)
      | Some (Normal strP) =>
          match serialize_properties rest with
          | None => None
          | Some (Throw e) => Some (Throw e)
          | Some (Normal partial) =>
              Some (Normal (match strP with
                            | Some s => (QuoteJSONString P ++ ":" ++ s) :: partial
                            | None => partial
                            end))
          end
      end
  end.

End Serialize.

Definition in_stack (l : loc) (stack : list loc) : bool :=
  existsb (Nat.eqb l) stack.

(** With an empty gap the final string is the members separated by
    commas between the brackets; no member gives the bare brackets. *)
Definition wrap_members (open close : string) (partial : list string) : string :=
  open ++ String.concat "," partial ++ close.

(** SerializeJSONProperty on the value itself.  [stack] holds the objects
    being serialized around this one; meeting one of them again is the
    cycle that raises a TypeError.  [fuel] bounds the nesting depth.
    [NumberToString] is Number::toString(x, 10) on a finite number, the
    engine's shortest round-trip decimal rendering, taken as given. *)
Fixpoint SerializeJSONProperty (NumberToString : float -> string)
    (fuel : nat) (h : Heap) (stack : list loc) (v : value)
  : option (completion (option string)) :=
  match fuel with
  | O => None
  | S fuel' =>
      match v with
      | Null => Some (Normal (Some "null"))
      | Boolean true => Some (Normal (Some "true"))
      | Boolean false => Some (Normal (Some "false"))
      | String_ s => Some (Normal (Some (QuoteJSONString s)))
      | Number x =>
          if PrimFloat.is_finite x
          then Some (Normal (Some (NumberToString x)))
          else Some (Normal (Some "null"))
      | BigInt _ => Some (Throw (TypeError bigint_message))
      | Object l =>
          if in_stack l stack then Some (Throw (TypeError circular_message))
          else
            let ser := SerializeJSONProperty NumberToString fuel' h (l :: stack) in
            match heap_get h l with
            | ArrayObj elems =>
                match serialize_elements ser elems with
                | None => None
                | Some (Throw e) => Some (Throw e)
                | Some (Normal partial) =>
                    Some (Normal (Some (wrap_members "[" "]" partial)))
                end
            | PlainObj props =>
                match serialize_properties ser props with
                | None => None
                | Some (Throw e) => Some (Throw e)
                | Some (Normal partial) =>
                    Some (Normal (Some (wrap_members "{" "}" partial)))
                end
            end
      | Undefined | Symbol _ | Function _ => Some (Normal None)
      end
  end.

(** JSON.stringify(value): the property serialization from an empty
    stack.  One more unit of fuel than there are allocated objects is
    enough for every heap ([SerializeJSONProperty_fuel] below), so the
    last branch is never taken. *)
Definition stringify (NumberToString : float -> string)
    (h : Heap) (v : value) : completion (option string) :=
  match SerializeJSONProperty NumberToString (S (length h)) h [] v with
  | Some r => r
  | None => Normal None
  end.

End JSON.

(** ** Array.prototype.join *)

(** Array.prototype.join on the results of a map whose elements are
    strings or undefined: an undefined element contributes the empty
    string, and the separator stands between consecutive elements. *)
Definition join_element (e : option string) : string :=
  match e with
  | Some s => s
  | None => ""
  end.

Definition Array_join (sep : string) (elems : list (option string)) : string :=
  String.concat sep (map join_element elems).

(** ** The host and the world the script runs in *)

(** The requests that cross the boundary to the embedder: [core.print]
    and the four [core.ops.op_gpu_*] operations, each with the arguments
    it is called with. *)
Inductive HostCall : Type :=
| Print (message : string) (is_err : bool)
| CreateWindow (title width height : value)
| CreateShaderModule (code : value)
| CreateRenderPipeline (shaderModuleId vertexEntry fragmentEntry : value)
| DrawFrame (pipelineId r g b a vertexCount instanceCount : value).

(** The collaborators the bootstrap relies on and does not define: the
    engine's number rendering, and the embedder, which answers each
    request from its own state with a value or by raising. *)
Class Runtime : Type := {
  NumberToString : float -> string;
  HostState : Type;
  host_op : HostCall -> HostState -> completion value * HostState
}.

(** [globalThis.__gpuCallbacks]: the three callback slots. *)
Record GpuCallbacks : Type := {
  setup : value;
  draw : value;
  resize : value
}.

(** Everything a call of the bootstrap's functions can read or change:
    the slots, the script's heap, the embedder's state, and the requests
    forwarded to the embedder so far, oldest first. *)
Record World `{Runtime} : Type := {
  __gpuCallbacks : GpuCallbacks;
  heap : Heap;
  host : HostState;
  forwarded : list HostCall
}.

Section Bootstrap.

Context `{RT : Runtime}.

(** A computation of the script: from a world to a completion and the
    world it leaves.  What was changed before a throw stays changed. *)
Definition M (A : Type) : Type := World -> completion A * World.

Definition ret {A} (a : A) : M A := fun w => (Normal a, w).

Definition throw {A} (e : exception) : M A := fun w => (Throw e, w).

Definition bind {A B} (m : M A) (k : A -> M B) : M B :=
  fun w =>
    match m w with
    | (Normal a, w') => k a w'
    | (Throw e, w') => (Throw e, w')
    end.

(** One request to the embedder: it is appended to the forwarded
    requests, the embedder moves to its next state, and its answer is
    the completion of the call. *)
Definition request (c : HostCall) : M value :=
  fun w =>
    let (answer, hs) := host_op c (host w) in
    (answer,
     {| __gpuCallbacks := __gpuCallbacks w;
        heap := heap w;
        host := hs;
        forwarded := (forwarded w ++ [c])%list |}).

End Bootstrap.

Notation "x <- m ;; k" := (bind m (fun x => k))
  (at level 61, m at next level, right associativity).

(** ** Built-ins and host bindings the bootstrap calls *)

Module core.

Section Core.

Context `{RT : Runtime}.

(** [core.print(message, is_err)]. *)
Definition print (message : string) (is_err : bool) : M value :=
  request (Print message is_err).

End Core.

Module ops.

Section Ops.

Context `{RT : Runtime}.

Definition op_gpu_create_window (title width height : value) : M value :=
  request (CreateWindow title width height).

Definition op_gpu_create_shader_module (code : value) : M value :=
  request (CreateShaderModule code).

Definition op_gpu_create_render_pipeline
    (shaderModuleId vertexEntry fragmentEntry : value) : M value :=
  request (CreateRenderPipeline shaderModuleId vertexEntry fragmentEntry).

Definition op_gpu_draw_frame
    (pipelineId r g b a vertexCount instanceCount : value) : M value :=
  request (DrawFrame pipelineId r g b a vertexCount instanceCount).

End Ops.

End ops.

End core.

Section Builtins.

Context `{RT : Runtime}.

(** [JSON.stringify(arg)] as the script calls it: on the current heap,
    with the engine's number rendering; it changes nothing. *)
Definition JSON_stringify (arg : value) : M (option string) :=
  fun w => (JSON.stringify NumberToString (heap w) arg, w).

(** [Array.prototype.map]: the callback runs on the elements in index
    order, and the first throw ends the call. *)
Fixpoint Array_map {A B : Type} (callback : A -> M B) (elems : list A)
  : M (list B) :=
  match elems with
  | [] => ret []
  | x :: rest =>
      y <- callback x ;;
      ys <- Array_map callback rest ;;
      ret (y :: ys)
  end.

End Builtins.

(** ** The bootstrap script *)

Definition line_feed : ascii := "010"%char.

Section ConsoleAPI.

Context `{RT : Runtime}.

(** [function argsToMessage(...args)]:
    [args.map((arg) => JSON.stringify(arg)).join(" ")]. *)
Definition argsToMessage (args : list value) : M string :=
  strs <- Array_map (fun arg => JSON_stringify arg) args ;;
  ret (Array_join " " strs).

End ConsoleAPI.

Module console.

Section Console.

Context `{RT : Runtime}.

(** [log: (...args) => { core.print(`[out]: ${argsToMessage(...args)}\n`, false); }] *)
Definition log (args : list value) : M value :=
  message <- argsToMessage args ;;
  _ <- core.print ("[out]: " ++ message ++ String line_feed "") false ;;
  ret Undefined.

(** [error: (...args) => { core.print(`[err]: ${argsToMessage(...args)}\n`, true); }] *)
Definition error (args : list value) : M value :=
  message <- argsToMessage args ;;
  _ <- core.print ("[err]: " ++ message ++ String line_feed "") true ;;
  ret Undefined.

End Console.

End console.

Section Slots.

Context `{RT : Runtime}.

(** The three assignments [globalThis.__gpuCallbacks.<slot> = fn]. *)
Definition assign_setup (fn : value) : M unit :=
  fun w =>
    (Normal tt,
     {| __gpuCallbacks := {| setup := fn;
                             draw := draw (__gpuCallbacks w);
                             resize := resize (__gpuCallbacks w) |};
        heap := heap w; host := host w; forwarded := forwarded w |}).

Definition assign_draw (fn : value) : M unit :=
  fun w =>
    (Normal tt,
     {| __gpuCallbacks := {| setup := setup (__gpuCallbacks w);
                             draw := fn;
                             resize := resize (__gpuCallbacks w) |};
        heap := heap w; host := host w; forwarded := forwarded w |}).

Definition assign_resize (fn : value) : M unit :=
  fun w =>
    (Normal tt,
     {| __gpuCallbacks := {| setup := setup (__gpuCallbacks w);
                             draw := draw (__gpuCallbacks w);
                             resize := fn |};
        heap := heap w; host := host w; forwarded := forwarded w |}).

End Slots.

Module gpu.

Section GpuAPI.

Context `{RT : Runtime}.

Definition createWindow (title width height : value) : M value :=
  _ <- core.ops.op_gpu_create_window title width height ;;
  ret Undefined.

Definition onSetup (fn : value) : M value :=
  _ <- assign_setup fn ;;
  ret Undefined.

Definition onDraw (fn : value) : M value :=
  _ <- assign_draw fn ;;
  ret Undefined.

Definition onResize (fn : value) : M value :=
  _ <- assign_resize fn ;;
  ret Undefined.

Definition createShaderModule (code : value) : M value :=
  core.ops.op_gpu_create_shader_module code.

Definition createRenderPipeline
    (shaderModuleId vertexEntry fragmentEntry : value) : M value :=
  core.ops.op_gpu_create_render_pipeline shaderModuleId vertexEntry fragmentEntry.

Definition drawFrame
    (pipelineId r g b a vertexCount instanceCount : value) : M value :=
  _ <- core.ops.op_gpu_draw_frame pipelineId r g b a vertexCount instanceCount ;;
  ret Undefined.

End GpuAPI.

End gpu.

Section Startup.

Context `{RT : Runtime}.

(** The world when the bootstrap module has been evaluated in an
    embedder whose state is [hs]: the three slots hold [null], the script
    has allocated nothing, and nothing has been forwarded. *)
Definition startup (hs : HostState) : World :=
  {| __gpuCallbacks := {| setup := Null; draw := Null; resize := Null |};
     heap := [];
     host := hs;
     forwarded := [] |}.

End Startup.

(** ** The operations a script can call, as one type *)

(** One call of a function the bootstrap installs, with its arguments. *)
Inductive Operation : Type :=
| ConsoleLog (args : list value)
| ConsoleError (args : list value)
| GpuCreateWindow (title width height : value)
| GpuOnSetup (fn : value)
| GpuOnDraw (fn : value)
| GpuOnResize (fn : value)
| GpuCreateShaderModule (code : value)
| GpuCreateRenderPipeline (shaderModuleId vertexEntry fragmentEntry : value)
| GpuDrawFrame (pipelineId r g b a vertexCount instanceCount : value).

Definition is_registration (op : Operation) : bool :=
  match op with
  | GpuOnSetup _ | GpuOnDraw _ | GpuOnResize _ => true
  | _ => false
  end.

Section Perform.

Context `{RT : Runtime}.

Definition perform (op : Operation) : M value :=
  match op with
  | ConsoleLog args => console.log args
  | ConsoleError args => console.error args
  | GpuCreateWindow title width height => gpu.createWindow title width height
  | GpuOnSetup fn => gpu.onSetup fn
  | GpuOnDraw fn => gpu.onDraw fn
  | GpuOnResize fn => gpu.onResize fn
  | GpuCreateShaderModule code => gpu.createShaderModule code
  | GpuCreateRenderPipeline shaderModuleId vertexEntry fragmentEntry =>
      gpu.createRenderPipeline shaderModuleId vertexEntry fragmentEntry
  | GpuDrawFrame pipelineId r g b a vertexCount instanceCount =>
      gpu.drawFrame pipelineId r g b a vertexCount instanceCount
  end.

(** A sequence of calls, each made in the world the one before left,
    whether that one returned or threw. *)
Fixpoint perform_all (ops : list Operation) (w : World) : World :=
  match ops with
  | [] => w
  | op :: rest => perform_all rest (snd (perform op w))
  end.

End Perform.

(** ** The dispatcher *)

Inductive Slot : Type := SetupSlot | DrawSlot | ResizeSlot.

Definition slot_value (s : Slot) (cb : GpuCallbacks) : value :=
  match s with
  | SetupSlot => setup cb
  | DrawSlot => draw cb
  | ResizeSlot => resize cb
  end.

Section Dispatcher.

Context `{RT : Runtime}.

(** The engine's function call: what calling the value [callee] with
    [args] does to the world, whatever script is loaded. *)
Variable Call : value -> list value -> M value.

(** The line written on the error channel for what a handler threw. *)
Variable report : exception -> string.

(** Modelled from the spec: the dispatcher, the embedder's native code
    that invokes the handlers from its event loop and is not part of the
    bootstrap script.  It reads the slot when it is about to invoke it;
    an unset slot (it holds no handler: the [null] it was created with)
    is skipped silently; what a handler throws is caught at this
    boundary, reported on the error channel, and the loop goes on. *)
Definition dispatch (s : Slot) (args : list value) : M unit :=
  fun w =>
    match slot_value s (__gpuCallbacks w) with
    | Null => (Normal tt, w)
    | handler =>
        match Call handler args w with
        | (Normal _, w') => (Normal tt, w')
        | (Throw e, w') =>
            (Normal tt, snd (core.print (report e) true w'))
        end
    end.

End Dispatcher.

(** ** An embedder to run the examples in *)

(** The state of the example embedder: the handle it gives out next and
    the handles of the shader modules it has created. *)
Record ExampleHost : Type := {
  next_handle : float;
  shader_modules : list float
}.

(** Modelled from the spec: the embedder's operations are native code
    outside the bootstrap script.  This one follows the host operation
    surface of the specification: printing and window creation and frame
    submission return nothing; creating a shader module from source text
    returns a new handle, and fails on anything else; creating a pipeline
    returns a new handle when the shader handle is live, and fails with
    an invalid-handle error otherwise. *)
Definition example_host_op (c : HostCall) (hs : ExampleHost)
  : completion value * ExampleHost :=
  match c with
  | Print _ _ => (Normal Undefined, hs)
  | CreateWindow _ _ _ => (Normal Undefined, hs)
  | CreateShaderModule (String_ _) =>
      (Normal (Number (next_handle hs)),
       {| next_handle := (next_handle hs + 1)%float;
          shader_modules := next_handle hs :: shader_modules hs |})
  | CreateShaderModule _ =>
      (Throw (HostOperationError "shader source is not text"), hs)
  | CreateRenderPipeline (Number shader) _ _ =>
      if existsb (PrimFloat.eqb shader) (shader_modules hs)
      then (Normal (Number (next_handle hs)),
            {| next_handle := (next_handle hs + 1)%float;
               shader_modules := shader_modules hs |})
      else (Throw (InvalidHandleError "no such shader module"), hs)
  | CreateRenderPipeline _ _ _ =>
      (Throw (InvalidHandleError "no such shader module"), hs)
  | DrawFrame _ _ _ _ _ _ _ => (Normal Undefined, hs)
  end.

Definition example_host_start : ExampleHost :=
  {| next_handle := 1%float; shader_modules := [] |}.

(** The decimal digits of a number that is an integer; the examples log
    no other number, and every other number is rendered as [0]. *)
Definition example_NumberToString (x : float) : string :=
  match Prim2SF x with
  | S754_finite s m e =>
      let digits :=
        if (0 <=? e)%Z
        then NilZero.string_of_uint (Pos.to_uint (m * 2 ^ Z.to_pos e))
        else if (Z.pos m mod 2 ^ (- e) =? 0)%Z
             then NilZero.string_of_uint (N.to_uint (Z.to_N (Z.pos m / 2 ^ (- e))))
             else "0"
      in if s then "-" ++ digits else digits
  | _ => "0"
  end.

#[local] Instance example_runtime : Runtime := {|
  NumberToString := example_NumberToString;
  HostState := ExampleHost;
  host_op := example_host_op
|}.

(** ** Definitions the statements below are written with *)

(** The allocated locations that are not on the stack: the objects the
    serialization can still enter. *)
Definition unvisited (h : Heap) (stack : list loc) : nat :=
  length (filter (fun l => negb (JSON.in_stack l stack)) (seq 0 (length h))).

(** The specification's canonical serialization of a string, number,
    boolean or null: strings quoted, the others in their literal
    representation (a number that is not finite has none in JSON and is
    written [null]).  It is used on these four kinds of value only. *)
Definition canonical_serialization `{RT : Runtime} (v : value) : string :=
  match v with
  | String_ s => JSON.QuoteJSONString s
  | Number x => if PrimFloat.is_finite x then NumberToString x else "null"
  | Boolean true => "true"
  | Boolean false => "false"
  | Null => "null"
  | Undefined | BigInt _ | Symbol _ | Function _ | Object _ => ""
  end.

Definition is_literal (v : value) : bool :=
  match v with
  | String_ _ | Number _ | Boolean _ | Null => true
  | _ => false
  end.

(** The line the specification describes for one logging call: the
    channel's prefix, the serializations joined with single spaces, and
    the end of the line. *)
Definition expected_line `{RT : Runtime} (prefix : string) (args : list value)
  : string :=
  prefix ++ String.concat " " (map canonical_serialization args)
         ++ String line_feed "".

(** What a logging call is expected to forward; other calls are not
    logging calls. *)
Definition expected_print `{RT : Runtime} (op : Operation) : list HostCall :=
  match op with
  | ConsoleLog args => [Print (expected_line "[out]: " args) false]
  | ConsoleError args => [Print (expected_line "[err]: " args) true]
  | _ => []
  end.

Definition logs_literals (op : Operation) : bool :=
  match op with
  | ConsoleLog args | ConsoleError args => forallb is_literal args
  | _ => false
  end.





Definition empty_slots : GpuCallbacks :=
  {| setup := Null; draw := Null; resize := Null |}.

(** The example embedder when the bootstrap has run. *)
Definition example_world : World := startup example_host_start.

(** A world of the example embedder in which the script has allocated
    one object, whose property [self] is the object itself. *)
Definition cyclic_world : World :=
  {| __gpuCallbacks := empty_slots;
     heap := [PlainObj [("self", Object 0)]];
     host := example_host_start;
     forwarded := [] |}.

(** The handlers of the specification's example scenario, as the engine
    runs them: function 0 creates a shader module and a pipeline from it,
    function 1 submits a frame with pipeline 2; nothing else is callable. *)
Definition scenario_Call (callee : value) (args : list value) : M value :=
  match callee with
  | Function 0 =>
      shader <- gpu.createShaderModule (String_ "src") ;;
      _ <- gpu.createRenderPipeline shader (String_ "vs") (String_ "fs") ;;
      ret Undefined
  | Function 1 =>
      _ <- gpu.drawFrame (Number 2) (Number 0) (Number 1) (Number 0) (Number 1)
                         (Number 3) (Number 1) ;;
      ret Undefined
  | _ => throw (TypeError "not a function")
  end.

Definition scenario_report (e : exception) : string := "handler failed".

(** The scenario: the script creates the window and registers the setup
    handler, the dispatcher invokes it; the script registers the draw
    handler, the dispatcher invokes it. *)
Definition scenario : M unit :=
  _ <- gpu.createWindow (String_ "T") (Number 800) (Number 600) ;;
  _ <- gpu.onSetup (Function 0) ;;
  _ <- dispatch scenario_Call scenario_report SetupSlot [] ;;
  _ <- gpu.onDraw (Function 1) ;;
  dispatch scenario_Call scenario_report DrawSlot [].

(** ** Definitions for the further properties *)

(** No code unit below U+0020: no line feed and no other control
    character. *)
Fixpoint clean (s : string) : bool :=
  match s with
  | EmptyString => true
  | String c s' => (32 <=? nat_of_ascii c)%nat && clean s'
  end.

(** The values JSON.stringify answers with undefined. *)
Definition serializes_to_undefined (v : value) : bool :=
  match v with
  | Undefined | Symbol _ | Function _ => true
  | _ => false
  end.

Fixpoint spaces (n : nat) : string :=
  match n with
  | O => ""
  | S n' => " " ++ spaces n'
  end.

(** The calls that reach the embedder whatever it answers. *)
Definition always_forwards (op : Operation) : bool :=
  match op with
  | GpuCreateWindow _ _ _ | GpuCreateShaderModule _
  | GpuCreateRenderPipeline _ _ _ | GpuDrawFrame _ _ _ _ _ _ _ => true
  | _ => false
  end.



(** ** The example script hello_triangle.ts *)

Module hello_triangle.

Definition shaderCode : string := "
@vertex
fn vs_main(@builtin(vertex_index) in_vertex_index: u32) -> @builtin(position) vec4<f32> {
    let x = f32(i32(in_vertex_index) - 1);
    let y = f32(i32(in_vertex_index & 1u) * 2 - 1);
    return vec4<f32>(x, y, 0.0, 1.0);
}

@fragment
fn fs_main() -> @location(0) vec4<f32> {
    return vec4<f32>(1.0, 0.0, 0.0, 1.0);
}
".

(** The script's state: its variable [pipeline], and the world. *)
Record Script `{Runtime} : Type := {
  pipeline : value;
  world : World
}.

(** The three arrow functions the script registers, in source order. *)
Definition setup_fn : value := Function 0.
Definition draw_fn : value := Function 1.
Definition resize_fn : value := Function 2.

Section Program.

Context `{RT : Runtime}.

Definition Run (A : Type) : Type := Script -> completion A * Script.

Definition pure {A} (a : A) : Run A := fun s => (Normal a, s).

Definition and_then {A B} (m : Run A) (k : A -> Run B) : Run B :=
  fun s =>
    match m s with
    | (Normal a, s') => k a s'
    | (Throw e, s') => (Throw e, s')
    end.

(** A call of one of the bootstrap's functions: it acts on the world and
    leaves the variable alone. *)
Definition call {A} (m : M A) : Run A :=
  fun s =>
    let (r, w) := m (world s) in
    (r, {| pipeline := pipeline s; world := w |}).

Definition assign_pipeline (v : value) : Run unit :=
  fun s => (Normal tt, {| pipeline := v; world := world s |}).

Definition read_pipeline : Run value :=
  fun s => (Normal (pipeline s), s).

(** ToString of a number, as a template literal applies it:
    Number::toString, whose finite case is the engine's rendering. *)
Definition Number_toString (x : float) : string :=
  if PrimFloat.is_nan x then "NaN"
  else if PrimFloat.is_infinity x
       then if (x <? 0)%float then "-Infinity" else "Infinity"
       else NumberToString x.

End Program.

Notation "x <~ m ;; k" := (and_then m (fun x => k))
  (at level 61, m at next level, right associativity).

Section Handlers.

Context `{RT : Runtime}.

(** [gpu.onSetup(() => { const shader = gpu.createShaderModule(shaderCode);
    pipeline = gpu.createRenderPipeline(shader, "vs_main", "fs_main");
    console.log("Pipeline created successfully"); })] *)
Definition setup_handler : Run value :=
  shader <~ call (gpu.createShaderModule (String_ shaderCode)) ;;
  created <~ call (gpu.createRenderPipeline shader (String_ "vs_main")
                                            (String_ "fs_main")) ;;
  _ <~ assign_pipeline created ;;
  _ <~ call (console.log [String_ "Pipeline created successfully"]) ;;
  pure Undefined.

(** [gpu.onDraw(() => { if (pipeline !== null) {
    gpu.drawFrame(pipeline, 0.0, 1.0, 0.0, 1.0, 3, 1); } })] *)
Definition draw_handler : Run value :=
  p <~ read_pipeline ;;
  match p with
  | Null => pure Undefined
  | _ =>
      _ <~ call (gpu.drawFrame p (Number 0) (Number 1) (Number 0) (Number 1)
                               (Number 3) (Number 1)) ;;
      pure Undefined
  end.

(** [gpu.onResize((width: number, height: number) => {
    console.log(`Resized to ${width}x${height}`); })] *)
Definition resize_handler (width height : float) : Run value :=
  _ <~ call (console.log
               [String_ ("Resized to " ++ Number_toString width
                         ++ "x" ++ Number_toString height)]) ;;
  pure Undefined.

(** The module body: [let pipeline = null], the window, and the three
    registrations. *)
Definition main : Run value :=
  _ <~ assign_pipeline Null ;;
  _ <~ call (gpu.createWindow (String_ "Hello Triangle") (Number 800)
                              (Number 600)) ;;
  _ <~ call (gpu.onSetup setup_fn) ;;
  _ <~ call (gpu.onDraw draw_fn) ;;
  _ <~ call (gpu.onResize resize_fn) ;;
  pure Undefined.

(** The state after [n] invocations of the draw handler, one per frame,
    whether an invocation returned or threw. *)
Fixpoint frames (n : nat) (s : Script) : Script :=
  match n with
  | O => s
  | S n' => frames n' (snd (draw_handler s))
  end.

(** The request the draw handler makes with pipeline [p]. *)
Definition frame_request (p : value) : HostCall :=
  DrawFrame p (Number 0) (Number 1) (Number 0) (Number 1) (Number 3) (Number 1).

End Handlers.

End hello_triangle.

(** The script's state in the example embedder, and in the refusing
    one, when the bootstrap has run and the module body starts. *)
Definition example_script : @hello_triangle.Script example_runtime :=
  {| hello_triangle.pipeline := Null; hello_triangle.world := example_world |}.


(** * Properties *)

(** ** JSON.stringify returns *)

Lemma filter_length_mono {A : Type} (f g : A -> bool) (l : list A) :
  (forall y, g y = true -> f y = true) ->
  length (filter g l) <= length (filter f l).
Proof.
  intros Himp. induction l as [| a l IH]; simpl; [lia |].
  destruct (g a) eqn:Hg.
  - rewrite (Himp a Hg). simpl. lia.
  - destruct (f a); simpl; lia.
Qed.

Lemma filter_length_lt {A : Type} (f g : A -> bool) (l : list A) (x : A) :
  (forall y, g y = true -> f y = true) ->
  In x l -> f x = true -> g x = false ->
  length (filter g l) < length (filter f l).
Proof.
  intros Himp Hin Hf Hg. induction l as [| a l IH]; simpl in *; [contradiction |].
  destruct Hin as [-> | Hin].
  - rewrite Hf, Hg. simpl.
    pose proof (filter_length_mono f g l Himp). lia.
  - specialize (IH Hin). destruct (g a) eqn:Hga.
    + rewrite (Himp a Hga). simpl. lia.
    + destruct (f a); simpl; lia.
Qed.

Lemma unvisited_push (h : Heap) (stack : list loc) (l : loc) :
  l < length h -> JSON.in_stack l stack = false ->
  unvisited h (l :: stack) < unvisited h stack.
Proof.
  intros Hl Hout. unfold unvisited.
  apply filter_length_lt with (x := l).
  - intros y Hy. apply negb_true_iff in Hy. apply negb_true_iff.
    unfold JSON.in_stack in *. simpl in Hy.
    apply orb_false_iff in Hy. tauto.
  - apply in_seq. lia.
  - now rewrite Hout.
  - unfold JSON.in_stack. simpl. now rewrite Nat.eqb_refl.
Qed.

Lemma unvisited_le (h : Heap) (stack : list loc) : unvisited h stack <= length h.
Proof.
  unfold unvisited.
  rewrite <- (length_seq (length h) 0) at 2.
  apply List.filter_length_le.
Qed.

Lemma serialize_elements_returns ser elems :
  (forall v, ser v <> None) -> JSON.serialize_elements ser elems <> None.
Proof.
  intros Hser. induction elems as [| v rest IH]; simpl; [discriminate |].
  specialize (Hser v).
  destruct (ser v) as [[strP | e] |]; try discriminate; [| contradiction].
  destruct (JSON.serialize_elements ser rest) as [[partial | e] |];
    try discriminate; contradiction.
Qed.

Lemma serialize_properties_returns ser props :
  (forall v, ser v <> None) -> JSON.serialize_properties ser props <> None.
Proof.
  intros Hser. induction props as [| [P v] rest IH]; simpl; [discriminate |].
  specialize (Hser v).
  destruct (ser v) as [[strP | e] |]; try discriminate; [| contradiction].
  destruct (JSON.serialize_properties ser rest) as [[partial | e] |];
    try discriminate; contradiction.
Qed.

(** With more fuel than there are objects left to enter, the
    serialization of a property returns. *)
Lemma SerializeJSONProperty_fuel nts fuel : forall h stack v,
  unvisited h stack < fuel ->
  JSON.SerializeJSONProperty nts fuel h stack v <> None.
Proof.
  induction fuel as [| fuel IH]; intros h stack v Hfuel; [lia |].
  destruct v as [| | [|] | x | s | z | d | c | l]; simpl; try discriminate.
  - destruct (PrimFloat.is_finite x); discriminate.
  - destruct (JSON.in_stack l stack) eqn:Hin; [discriminate |].
    destruct (Nat.lt_ge_cases l (length h)) as [Hl | Hl].
    + assert (Hser : forall v,
                 JSON.SerializeJSONProperty nts fuel h (l :: stack) v <> None).
      { intros v. apply IH.
        pose proof (unvisited_push h stack l Hl Hin). lia. }
      destruct (heap_get h l) as [elems | props].
      * pose proof (serialize_elements_returns _ elems Hser) as Hr.
        destruct (JSON.serialize_elements _ elems) as [[partial | e] |];
          try discriminate; contradiction.
      * pose proof (serialize_properties_returns _ props Hser) as Hr.
        destruct (JSON.serialize_properties _ props) as [[partial | e] |];
          try discriminate; contradiction.
    + unfold heap_get. rewrite nth_overflow by assumption. simpl. discriminate.
Qed.

(** JSON.stringify never takes its out-of-fuel branch: on every heap and
    value the property serialization it starts returns a completion. *)
Lemma stringify_returns nts (h : Heap) (v : value) :
  exists r, JSON.SerializeJSONProperty nts (S (length h)) h [] v = Some r
            /\ JSON.stringify nts h v = r.
Proof.
  pose proof (SerializeJSONProperty_fuel nts (S (length h)) h [] v) as Hr.
  unfold JSON.stringify.
  destruct (JSON.SerializeJSONProperty nts (S (length h)) h [] v) as [r |].
  - now exists r.
  - exfalso. apply Hr; [| reflexivity].
    pose proof (unvisited_le h []). lia.
Qed.

(** ** What JSON.stringify throws *)







Lemma SerializeJSONProperty_Object nts fuel h stack l :
  JSON.SerializeJSONProperty nts (S fuel) h stack (Object l)
  = if JSON.in_stack l stack then Some (Throw (TypeError JSON.circular_message))
    else match heap_get h l with
         | ArrayObj elems =>
             match JSON.serialize_elements
                     (JSON.SerializeJSONProperty nts fuel h (l :: stack)) elems with
             | None => None
             | Some (Throw e) => Some (Throw e)
             | Some (Normal partial) =>
                 Some (Normal (Some (JSON.wrap_members "[" "]" partial)))
             end
         | PlainObj props =>
             match JSON.serialize_properties
                     (JSON.SerializeJSONProperty nts fuel h (l :: stack)) props with
             | None => None
             | Some (Throw e) => Some (Throw e)
             | Some (Normal partial) =>
                 Some (Normal (Some (JSON.wrap_members "{" "}" partial)))
             end
         end.
Proof. reflexivity. Qed.

(** JSON.stringify throws on a BigInt, and on an object that is its own
    property or element. *)
Lemma stringify_BigInt_throws nts (h : Heap) (z : Z) :
  JSON.stringify nts h (BigInt z) = Throw (TypeError JSON.bigint_message).
Proof. reflexivity. Qed.


(** ** The console shim *)

Section ConsoleFacts.

Context `{RT : Runtime}.

Lemma stringify_literal (h : Heap) (v : value) :
  is_literal v = true ->
  JSON.stringify NumberToString h v = Normal (Some (canonical_serialization v)).
Proof.
  destruct v as [| | [|] | x | s | z | d | c | l]; try discriminate;
    intros _; unfold JSON.stringify; simpl; try reflexivity.
  destruct (PrimFloat.is_finite x); reflexivity.
Qed.

Lemma Array_map_cons {A B : Type} (f : A -> M B) (x : A) (rest : list A) (w : World) :
  Array_map f (x :: rest) w
  = match f x w with
    | (Normal y, w') =>
        match Array_map f rest w' with
        | (Normal ys, w'') => (Normal (y :: ys), w'')
        | (Throw e, w'') => (Throw e, w'')
        end
    | (Throw e, w') => (Throw e, w')
    end.
Proof.
  simpl. unfold bind. destruct (f x w) as [[y | e] w']; [| reflexivity].
  destruct (Array_map f rest w') as [[ys | e] w'']; reflexivity.
Qed.

(** The map over the arguments reads the heap and nothing else, and
    leaves the world as it found it. *)
Lemma Array_map_stringify (h : Heap) (args : list value) :
  exists r, forall w, heap w = h -> Array_map JSON_stringify args w = (r, w).
Proof.
  induction args as [| arg rest [r IH]].
  - exists (Normal []). reflexivity.
  - destruct (JSON.stringify NumberToString h arg) as [s | e] eqn:Hs.
    + destruct r as [ys | e].
      * exists (Normal (s :: ys)). intros w Hw.
        rewrite Array_map_cons. unfold JSON_stringify at 1.
        rewrite Hw, Hs, (IH w Hw). reflexivity.
      * exists (Throw e). intros w Hw.
        rewrite Array_map_cons. unfold JSON_stringify at 1.
        rewrite Hw, Hs, (IH w Hw). reflexivity.
    + exists (Throw e). intros w Hw.
      rewrite Array_map_cons. unfold JSON_stringify at 1.
      rewrite Hw, Hs. reflexivity.
Qed.

Lemma argsToMessage_unfold (args : list value) (w : World) :
  argsToMessage args w
  = match Array_map JSON_stringify args w with
    | (Normal strs, w') => (Normal (Array_join " " strs), w')
    | (Throw e, w') => (Throw e, w')
    end.
Proof. reflexivity. Qed.

Lemma argsToMessage_reads_heap (h : Heap) (args : list value) :
  exists r, forall w, heap w = h -> argsToMessage args w = (r, w).
Proof.
  destruct (Array_map_stringify h args) as [[strs | e] Hr].
  - exists (Normal (Array_join " " strs)). intros w Hw.
    rewrite argsToMessage_unfold, (Hr w Hw). reflexivity.
  - exists (Throw e). intros w Hw.
    rewrite argsToMessage_unfold, (Hr w Hw). reflexivity.
Qed.




Lemma Array_map_literals (args : list value) (w : World) :
  forallb is_literal args = true ->
  Array_map JSON_stringify args w
  = (Normal (map (fun v => Some (canonical_serialization v)) args), w).
Proof.
  induction args as [| arg rest IH]; [reflexivity |].
  simpl forallb. intros H. apply andb_true_iff in H as [Harg Hrest].
  rewrite Array_map_cons. unfold JSON_stringify at 1.
  rewrite (stringify_literal _ _ Harg), (IH Hrest). reflexivity.
Qed.

Lemma argsToMessage_literals (args : list value) (w : World) :
  forallb is_literal args = true ->
  argsToMessage args w
  = (Normal (String.concat " " (map canonical_serialization args)), w).
Proof.
  intros H. rewrite argsToMessage_unfold, (Array_map_literals _ _ H).
  unfold Array_join. rewrite map_map. reflexivity.
Qed.


Lemma Array_map_serializable (args : list value) (w : World) :
  Forall (fun v => exists s, JSON.stringify NumberToString (heap w) v = Normal s)
         args ->
  exists strs, Array_map JSON_stringify args w = (Normal strs, w).
Proof.
  induction 1 as [| arg rest [s Hs] _ [strs IH]].
  - exists []. reflexivity.
  - exists (s :: strs). rewrite Array_map_cons. unfold JSON_stringify at 1.
    rewrite Hs, IH. reflexivity.
Qed.

Lemma forwarded_request (c : HostCall) (w : World) :
  forwarded (snd (request c w)) = (forwarded w ++ [c])%list.
Proof. unfold request. destruct (host_op c (host w)). reflexivity. Qed.

Lemma slots_request (c : HostCall) (w : World) :
  __gpuCallbacks (snd (request c w)) = __gpuCallbacks w.
Proof. unfold request. destruct (host_op c (host w)). reflexivity. Qed.

(** A call that discards the embedder's value: the same world, and the
    same throw if the embedder raised. *)
Lemma request_then_undefined (c : HostCall) (w : World) :
  (_ <- request c ;; ret Undefined) w
  = (match fst (host_op c (host w)) with
     | Normal _ => Normal Undefined
     | Throw e => Throw e
     end,
     snd (request c w)).
Proof.
  unfold bind, request, ret.
  destruct (host_op c (host w)) as [[v | e] hs]; reflexivity.
Qed.

End ConsoleFacts.

(** ** The claims *)

Section Claims.

Context `{RT : Runtime}.

Lemma log_literals (args : list value) (w : World) :
  forallb is_literal args = true ->
  forwarded (snd (console.log args w))
  = (forwarded w ++ [Print (expected_line "[out]: " args) false])%list.
Proof.
  intros H. unfold console.log, bind at 1.
  rewrite (argsToMessage_literals _ _ H).
  unfold core.print. rewrite request_then_undefined.
  cbn [snd]. apply forwarded_request.
Qed.

Lemma error_literals (args : list value) (w : World) :
  forallb is_literal args = true ->
  forwarded (snd (console.error args w))
  = (forwarded w ++ [Print (expected_line "[err]: " args) true])%list.
Proof.
  intros H. unfold console.error, bind at 1.
  rewrite (argsToMessage_literals _ _ H).
  unfold core.print. rewrite request_then_undefined.
  cbn [snd]. apply forwarded_request.
Qed.

(** C1 (amended).  For every sequence of [console.log] and
    [console.error] calls whose arguments are strings, numbers, booleans
    or null, the requests forwarded to the host print primitive are, call
    by call and in order, one message per call: the channel prefix
    ([[out]: ] for log, [[err]: ] for error), the canonical
    serializations of the arguments joined with single spaces, and a line
    feed, with the error flag false for log and true for error. *)
Theorem console_forwards_expected_lines (ops : list Operation) (w : World) :
  forallb logs_literals ops = true ->
  forwarded (perform_all ops w)
  = (forwarded w ++ flat_map expected_print ops)%list.
Proof.
  revert w. induction ops as [| op rest IH]; intros w H.
  - simpl. now rewrite app_nil_r.
  - simpl in H. apply andb_true_iff in H as [Hop Hrest].
    cbn [perform_all flat_map]. rewrite (IH _ Hrest), app_assoc. f_equal.
    destruct op; try discriminate; cbn [perform expected_print logs_literals] in *.
    + now apply log_literals.
    + now apply error_literals.
Qed.


(** C3.  In each of the three slots, registering [f] and then [g]
    leaves exactly [g] in the slot, and the world is the one in which
    only [g] was ever registered: nothing of [f] remains. *)
Theorem registration_last_write_wins (f g : value) (w : World) :
  (setup (__gpuCallbacks (snd (gpu.onSetup g (snd (gpu.onSetup f w))))) = g
   /\ snd (gpu.onSetup g (snd (gpu.onSetup f w))) = snd (gpu.onSetup g w))
  /\ (draw (__gpuCallbacks (snd (gpu.onDraw g (snd (gpu.onDraw f w))))) = g
      /\ snd (gpu.onDraw g (snd (gpu.onDraw f w))) = snd (gpu.onDraw g w))
  /\ (resize (__gpuCallbacks (snd (gpu.onResize g (snd (gpu.onResize f w))))) = g
      /\ snd (gpu.onResize g (snd (gpu.onResize f w))) = snd (gpu.onResize g w)).
Proof. repeat split. Qed.

(** C4.  [drawFrame] forwards exactly one request to the host draw
    operation, carrying the pipeline handle, the four colour channels,
    the vertex count and the instance count it was given, in that order
    and unmodified; it returns nothing, or throws what the host threw. *)
Theorem drawFrame_forwards_one_submission
    (pipelineId r g b a vertexCount instanceCount : value) (w : World) :
  gpu.drawFrame pipelineId r g b a vertexCount instanceCount w
  = (match fst (host_op (DrawFrame pipelineId r g b a vertexCount instanceCount)
                        (host w)) with
     | Normal _ => Normal Undefined
     | Throw e => Throw e
     end,
     {| __gpuCallbacks := __gpuCallbacks w;
        heap := heap w;
        host := snd (host_op (DrawFrame pipelineId r g b a vertexCount instanceCount)
                             (host w));
        forwarded :=
          (forwarded w
           ++ [DrawFrame pipelineId r g b a vertexCount instanceCount])%list |}).
Proof.
  unfold gpu.drawFrame, core.ops.op_gpu_draw_frame.
  rewrite request_then_undefined. unfold request.
  destruct (host_op _ (host w)); reflexivity.
Qed.

(** C5.  [createShaderModule] and [createRenderPipeline] each forward
    exactly one request to the corresponding host operation with the
    arguments they were given, and complete as the host answered: with
    the handle the host returned, unchanged, or by throwing what the host
    threw, unchanged.  Nothing is swallowed and nothing is asked twice. *)
Theorem creation_forwards_once_and_completes_as_host
    (code shaderModuleId vertexEntry fragmentEntry : value) (w : World) :
  gpu.createShaderModule code w
  = (fst (host_op (CreateShaderModule code) (host w)),
     {| __gpuCallbacks := __gpuCallbacks w;
        heap := heap w;
        host := snd (host_op (CreateShaderModule code) (host w));
        forwarded := (forwarded w ++ [CreateShaderModule code])%list |})
  /\ gpu.createRenderPipeline shaderModuleId vertexEntry fragmentEntry w
     = (fst (host_op (CreateRenderPipeline shaderModuleId vertexEntry fragmentEntry)
                     (host w)),
        {| __gpuCallbacks := __gpuCallbacks w;
           heap := heap w;
           host := snd (host_op
                          (CreateRenderPipeline shaderModuleId vertexEntry fragmentEntry)
                          (host w));
           forwarded :=
             (forwarded w
              ++ [CreateRenderPipeline shaderModuleId vertexEntry fragmentEntry])%list |}).
Proof.
  split.
  - unfold gpu.createShaderModule, core.ops.op_gpu_create_shader_module, request.
    destruct (host_op _ (host w)); reflexivity.
  - unfold gpu.createRenderPipeline, core.ops.op_gpu_create_render_pipeline, request.
    destruct (host_op _ (host w)); reflexivity.
Qed.

Lemma slots_argsToMessage_then (args : list value) (k : string -> M value) (w : World) :
  (forall m w', __gpuCallbacks (snd (k m w')) = __gpuCallbacks w') ->
  __gpuCallbacks (snd ((message <- argsToMessage args ;; k message) w))
  = __gpuCallbacks w.
Proof.
  intros Hk. destruct (argsToMessage_reads_heap (heap w) args) as [r Hr].
  unfold bind. rewrite (Hr w eq_refl). destruct r as [m | e]; [apply Hk | reflexivity].
Qed.

(** C6.  When the bootstrap has run, the three slots exist and hold no
    handler; and an operation other than [onSetup], [onDraw] and
    [onResize] leaves all three slots as they were. *)
Theorem slots_start_empty_and_only_registration_writes
    (hs : HostState) (op : Operation) (w : World) :
  __gpuCallbacks (startup hs) = empty_slots
  /\ (is_registration op = false ->
      __gpuCallbacks (snd (perform op w)) = __gpuCallbacks w).
Proof.
  split; [reflexivity |].
  destruct op; try discriminate; intros _; cbn [perform].
  - apply slots_argsToMessage_then. intros m w'.
    unfold core.print. rewrite request_then_undefined. apply slots_request.
  - apply slots_argsToMessage_then. intros m w'.
    unfold core.print. rewrite request_then_undefined. apply slots_request.
  - unfold gpu.createWindow, core.ops.op_gpu_create_window.
    rewrite request_then_undefined. apply slots_request.
  - apply slots_request.
  - apply slots_request.
  - unfold gpu.drawFrame, core.ops.op_gpu_draw_frame.
    rewrite request_then_undefined. apply slots_request.
Qed.

(** C7.  [createWindow] forwards exactly one request to the host
    window-creation operation, carrying the title, the width and the
    height it was given, in that order and unmodified, and returns no
    value: its completion is [undefined], whatever the host returned,
    unless the host threw. *)
Theorem createWindow_forwards_and_returns_nothing
    (title width height : value) (w : World) :
  gpu.createWindow title width height w
  = (match fst (host_op (CreateWindow title width height) (host w)) with
     | Normal _ => Normal Undefined
     | Throw e => Throw e
     end,
     {| __gpuCallbacks := __gpuCallbacks w;
        heap := heap w;
        host := snd (host_op (CreateWindow title width height) (host w));
        forwarded := (forwarded w ++ [CreateWindow title width height])%list |}).
Proof.
  unfold gpu.createWindow, core.ops.op_gpu_create_window.
  rewrite request_then_undefined. unfold request.
  destruct (host_op _ (host w)); reflexivity.
Qed.

(** C8.  Dispatching to a slot that is unset makes no call and produces
    no error: the dispatch completes normally and the world, with the
    requests forwarded to the host, is as it was, whatever the engine
    would do on a call. *)
Theorem dispatch_unset_slot_is_skipped
    (Call : value -> list value -> M value) (report : exception -> string)
    (s : Slot) (args : list value) (w : World) :
  slot_value s (__gpuCallbacks w) = Null ->
  dispatch Call report s args w = (Normal tt, w).
Proof. intros H. unfold dispatch. rewrite H. reflexivity. Qed.

(** C9.  Each registration writes its own slot and nothing else: the two
    other slots, the heap, the host and the forwarded requests (so no
    host call and no console output) are as before. *)
Theorem registration_writes_only_its_slot (f : value) (w : World) :
  (setup (__gpuCallbacks (snd (gpu.onSetup f w))) = f
   /\ draw (__gpuCallbacks (snd (gpu.onSetup f w))) = draw (__gpuCallbacks w)
   /\ resize (__gpuCallbacks (snd (gpu.onSetup f w))) = resize (__gpuCallbacks w)
   /\ heap (snd (gpu.onSetup f w)) = heap w
   /\ host (snd (gpu.onSetup f w)) = host w
   /\ forwarded (snd (gpu.onSetup f w)) = forwarded w)
  /\ (draw (__gpuCallbacks (snd (gpu.onDraw f w))) = f
      /\ setup (__gpuCallbacks (snd (gpu.onDraw f w))) = setup (__gpuCallbacks w)
      /\ resize (__gpuCallbacks (snd (gpu.onDraw f w))) = resize (__gpuCallbacks w)
      /\ heap (snd (gpu.onDraw f w)) = heap w
      /\ host (snd (gpu.onDraw f w)) = host w
      /\ forwarded (snd (gpu.onDraw f w)) = forwarded w)
  /\ (resize (__gpuCallbacks (snd (gpu.onResize f w))) = f
      /\ setup (__gpuCallbacks (snd (gpu.onResize f w))) = setup (__gpuCallbacks w)
      /\ draw (__gpuCallbacks (snd (gpu.onResize f w))) = draw (__gpuCallbacks w)
      /\ heap (snd (gpu.onResize f w)) = heap w
      /\ host (snd (gpu.onResize f w)) = host w
      /\ forwarded (snd (gpu.onResize f w)) = forwarded w).
Proof. repeat split. Qed.

Lemma console_forwarded_of_message (args : list value) (w : World)
    (r : completion string) :
  argsToMessage args w = (r, w) ->
  forwarded (snd (console.log args w))
  = (forwarded w
     ++ match r with
        | Normal m => [Print ("[out]: " ++ m ++ String line_feed "") false]
        | Throw _ => []
        end)%list
  /\ forwarded (snd (console.error args w))
     = (forwarded w
        ++ match r with
           | Normal m => [Print ("[err]: " ++ m ++ String line_feed "") true]
           | Throw _ => []
           end)%list.
Proof.
  intros Hr. unfold console.log, console.error, bind at 1 3. rewrite Hr.
  destruct r as [m | e].
  - unfold core.print. rewrite !request_then_undefined.
    split; apply forwarded_request.
  - cbn [snd]. now rewrite app_nil_r.
Qed.

(** When every argument can be serialized, one line is forwarded. *)
Lemma logging_serializable_forwards_one_line (args : list value) (w : World) :
  Forall (fun v => exists s, JSON.stringify NumberToString (heap w) v = Normal s)
         args ->
  exists m,
    forwarded (snd (console.log args w))
    = (forwarded w ++ [Print ("[out]: " ++ m ++ String line_feed "") false])%list
    /\ forwarded (snd (console.error args w))
       = (forwarded w ++ [Print ("[err]: " ++ m ++ String line_feed "") true])%list.
Proof.
  intros H. destruct (Array_map_serializable args w H) as [strs Hmap].
  exists (Array_join " " strs).
  apply (console_forwarded_of_message args w (Normal (Array_join " " strs))).
  rewrite argsToMessage_unfold, Hmap. reflexivity.
Qed.

(** After an overwrite the dispatcher does what it does when only the
    second handler was ever registered. *)
Lemma dispatch_after_overwrite
    (Call : value -> list value -> M value) (report : exception -> string)
    (f g : value) (args : list value) (w : World) :
  dispatch Call report SetupSlot args (snd (gpu.onSetup g (snd (gpu.onSetup f w))))
  = dispatch Call report SetupSlot args (snd (gpu.onSetup g w))
  /\ dispatch Call report DrawSlot args (snd (gpu.onDraw g (snd (gpu.onDraw f w))))
     = dispatch Call report DrawSlot args (snd (gpu.onDraw g w))
  /\ dispatch Call report ResizeSlot args
       (snd (gpu.onResize g (snd (gpu.onResize f w))))
     = dispatch Call report ResizeSlot args (snd (gpu.onResize g w)).
Proof. repeat split. Qed.


End Claims.

(** ** The claims at concrete inputs, in the example embedder *)

(** The specification's scenario forwards four requests, the last of
    them the one frame submission, and leaves both handlers registered. *)
Example scenario_run :
  scenario example_world
  = (Normal tt,
     {| __gpuCallbacks := {| setup := Function 0; draw := Function 1; resize := Null |};
        heap := [];
        host := {| next_handle := 3; shader_modules := [1%float] |};
        forwarded :=
          [CreateWindow (String_ "T") (Number 800) (Number 600);
           CreateShaderModule (String_ "src");
           CreateRenderPipeline (Number 1) (String_ "vs") (String_ "fs");
           DrawFrame (Number 2) (Number 0) (Number 1) (Number 0) (Number 1)
                     (Number 3) (Number 1)] |}).
Proof. vm_compute. reflexivity. Qed.

(** A pipeline from a handle no shader module has is refused by the
    host, and the script sees that error. *)
Example createRenderPipeline_invalid_handle :
  fst (gpu.createRenderPipeline (Number 7) (String_ "vs") (String_ "fs")
         example_world)
  = Throw (InvalidHandleError "no such shader module").
Proof. reflexivity. Qed.

(** A value that serializes to undefined (undefined itself, a function,
    a symbol) is logged as the empty string between the separators. *)
Example log_undefined_is_empty :
  forwarded (snd (console.log [Undefined; Boolean true; Function 0; Symbol "s"]
                    example_world))
  = [Print ("[out]:  true  " ++ String line_feed "") false].
Proof. reflexivity. Qed.

(** C1, as stated, fails: the message [console.log] forwards for the
    string [a] is not the serialization of [a] but that serialization
    between [[out]: ] and a line feed; for a BigInt, a primitive value,
    nothing is forwarded; and the number NaN is written [null]. *)
Lemma console_line_is_not_the_bare_serialization :
  forwarded (snd (console.log [String_ "a"] example_world))
  <> [Print (String.concat " " (map canonical_serialization [String_ "a"])) false]
  /\ forwarded (snd (console.log [String_ "a"] example_world))
     = [Print ("[out]: "
               ++ String JSON.quotation_mark
                    ("a" ++ String JSON.quotation_mark (String line_feed "")))
              false]
  /\ console.log [BigInt 1] example_world
     = (Throw (TypeError JSON.bigint_message), example_world)
  /\ forwarded (snd (console.log [Number nan] example_world))
     = [Print ("[out]: null" ++ String line_feed "") false].
Proof. repeat split; vm_compute; congruence. Qed.

Lemma console_forwards_expected_lines_witness :
  forallb logs_literals
    [ConsoleLog [String_ "Pipeline created successfully"];
     ConsoleError [String_ "a"; Number 3; Boolean true; Null]] = true
  /\ forwarded
       (perform_all
          [ConsoleLog [String_ "Pipeline created successfully"];
           ConsoleError [String_ "a"; Number 3; Boolean true; Null]]
          example_world)
     = (forwarded example_world
        ++ flat_map expected_print
             [ConsoleLog [String_ "Pipeline created successfully"];
              ConsoleError [String_ "a"; Number 3; Boolean true; Null]])%list.
Proof.
  split; [reflexivity |].
  apply (console_forwards_expected_lines (RT := example_runtime)
           [ConsoleLog [String_ "Pipeline created successfully"];
            ConsoleError [String_ "a"; Number 3; Boolean true; Null]]
           example_world).
  reflexivity.
Defined.



Lemma slots_only_registration_writes_witness :
  is_registration (ConsoleLog [String_ "x"]) = false
  /\ __gpuCallbacks (snd (perform (ConsoleLog [String_ "x"])
                            (snd (gpu.onDraw (Function 1)
                                    example_world))))
     = __gpuCallbacks (snd (gpu.onDraw (Function 1) example_world)).
Proof.
  split; [reflexivity |].
  apply (proj2 (slots_start_empty_and_only_registration_writes
                  (RT := example_runtime) example_host_start (ConsoleLog [String_ "x"])
                  (snd (gpu.onDraw (Function 1) example_world)))).
  reflexivity.
Defined.

Lemma dispatch_unset_slot_is_skipped_witness :
  slot_value DrawSlot (__gpuCallbacks example_world) = Null
  /\ dispatch scenario_Call scenario_report DrawSlot []
       example_world
     = (Normal tt, example_world).
Proof.
  split; [reflexivity |].
  apply (dispatch_unset_slot_is_skipped (RT := example_runtime) scenario_Call scenario_report DrawSlot []
           example_world).
  reflexivity.
Defined.


(** * Further properties of the bootstrap script *)

(** ** A logged line is one line *)

Lemma clean_app (a b : string) : clean (a ++ b) = clean a && clean b.
Proof.
  induction a as [| c a IH]; simpl; [reflexivity |].
  now rewrite IH, andb_assoc.
Qed.

Lemma clean_quote_code_unit (c : ascii) : clean (JSON.quote_code_unit c) = true.
Proof. destruct c as [[] [] [] [] [] [] [] []]; reflexivity. Qed.

Lemma clean_QuoteJSONString (s : string) : clean (JSON.QuoteJSONString s) = true.
Proof.
  unfold JSON.QuoteJSONString. cbn [clean]. rewrite clean_app.
  assert (H : clean (JSON.quote_code_units s) = true).
  { induction s as [| c s IH]; simpl; [reflexivity |].
    now rewrite clean_app, clean_quote_code_unit, IH. }
  now rewrite H.
Qed.

Lemma clean_concat (sep : string) (l : list string) :
  clean sep = true -> Forall (fun s => clean s = true) l ->
  clean (String.concat sep l) = true.
Proof.
  intros Hsep Hl. induction Hl as [| s l Hs Hl IH]; [reflexivity |].
  destruct l as [| s' l]; [exact Hs |].
  change (clean (s ++ sep ++ String.concat sep (s' :: l)) = true).
  now rewrite !clean_app, Hs, Hsep, IH.
Qed.

Lemma clean_wrap_members (open close : string) (partial : list string) :
  clean open = true -> clean close = true ->
  Forall (fun s => clean s = true) partial ->
  clean (JSON.wrap_members open close partial) = true.
Proof.
  intros Ho Hc Hp. unfold JSON.wrap_members.
  now rewrite !clean_app, Ho, Hc, (clean_concat "," partial eq_refl Hp).
Qed.

Lemma serialize_elements_clean ser elems partial :
  (forall v s, ser v = Some (Normal (Some s)) -> clean s = true) ->
  JSON.serialize_elements ser elems = Some (Normal partial) ->
  Forall (fun s => clean s = true) partial.
Proof.
  intros Hser. revert partial.
  induction elems as [| v rest IH]; simpl; intros partial H.
  - injection H as <-. constructor.
  - destruct (ser v) as [[strP | e] |] eqn:Hv; try discriminate.
    destruct (JSON.serialize_elements ser rest) as [[p | e] |]; try discriminate.
    injection H as <-. constructor; [| now apply IH].
    destruct strP as [s |]; [eapply Hser; exact Hv | reflexivity].
Qed.

Lemma serialize_properties_clean ser props partial :
  (forall v s, ser v = Some (Normal (Some s)) -> clean s = true) ->
  JSON.serialize_properties ser props = Some (Normal partial) ->
  Forall (fun s => clean s = true) partial.
Proof.
  intros Hser. revert partial.
  induction props as [| [P v] rest IH]; cbn [JSON.serialize_properties];
    intros partial H.
  - injection H as <-. constructor.
  - destruct (ser v) as [[strP | e] |] eqn:Hv; try discriminate.
    destruct (JSON.serialize_properties ser rest) as [[p | e] |]; try discriminate.
    injection H as <-. destruct strP as [s |]; [| now apply IH].
    constructor; [| now apply IH].
    change (clean (JSON.QuoteJSONString P ++ ":" ++ s) = true).
    rewrite !clean_app, clean_QuoteJSONString, (Hser v s Hv). reflexivity.
Qed.

Lemma SerializeJSONProperty_clean nts :
  (forall x, PrimFloat.is_finite x = true -> clean (nts x) = true) ->
  forall fuel h stack v s,
    JSON.SerializeJSONProperty nts fuel h stack v = Some (Normal (Some s)) ->
    clean s = true.
Proof.
  intros Hnts. induction fuel as [| fuel IH]; intros h stack v s; [discriminate |].
  destruct v as [| | [|] | x | str | z | d | c | l];
    try (simpl; intros H; injection H as <-; reflexivity);
    try (simpl; discriminate).
  - simpl. destruct (PrimFloat.is_finite x) eqn:Hx; intros H; injection H as <-;
      [now apply Hnts | reflexivity].
  - simpl. intros H; injection H as <-. apply clean_QuoteJSONString.
  - rewrite SerializeJSONProperty_Object.
    destruct (JSON.in_stack l stack); [discriminate |].
    destruct (heap_get h l) as [elems | props].
    + destruct (JSON.serialize_elements _ elems) as [[partial | e] |] eqn:Hs;
        try discriminate.
      intros H; injection H as <-.
      apply clean_wrap_members; try reflexivity.
      eapply serialize_elements_clean; [| exact Hs]. intros v0 s0. apply IH.
    + destruct (JSON.serialize_properties _ props) as [[partial | e] |] eqn:Hs;
        try discriminate.
      intros H; injection H as <-.
      apply clean_wrap_members; try reflexivity.
      eapply serialize_properties_clean; [| exact Hs]. intros v0 s0. apply IH.
Qed.

Lemma stringify_clean nts h v s :
  (forall x, PrimFloat.is_finite x = true -> clean (nts x) = true) ->
  JSON.stringify nts h v = Normal (Some s) -> clean s = true.
Proof.
  intros Hnts. unfold JSON.stringify.
  destruct (JSON.SerializeJSONProperty nts (S (length h)) h [] v) as [r |] eqn:Hs;
    [| discriminate].
  intros ->. eapply SerializeJSONProperty_clean; eassumption.
Qed.

Lemma clean_string_of_uint (d : Decimal.uint) :
  clean (NilZero.string_of_uint d) = true.
Proof.
  assert (H : forall d', clean (NilEmpty.string_of_uint d') = true).
  { induction d' as [| d' IH | d' IH | d' IH | d' IH | d' IH
                     | d' IH | d' IH | d' IH | d' IH | d' IH];
      simpl; rewrite ?IH; reflexivity. }
  destruct d; try apply H. reflexivity.
Qed.

Lemma example_NumberToString_clean (x : float) :
  clean (example_NumberToString x) = true.
Proof.
  unfold example_NumberToString.
  destruct (Prim2SF x) as [s | s | | s m e]; try reflexivity.
  assert (H : clean (if (0 <=? e)%Z
                     then NilZero.string_of_uint (Pos.to_uint (m * 2 ^ Z.to_pos e))
                     else if (Z.pos m mod 2 ^ (- e) =? 0)%Z
                          then NilZero.string_of_uint
                                 (N.to_uint (Z.to_N (Z.pos m / 2 ^ (- e))))
                          else "0") = true).
  { destruct (0 <=? e)%Z; [apply clean_string_of_uint |].
    destruct (Z.pos m mod 2 ^ (- e) =? 0)%Z;
      [apply clean_string_of_uint | reflexivity]. }
  destruct s; [rewrite clean_app |]; rewrite H; reflexivity.
Qed.

Section FurtherConsole.

Context `{RT : Runtime}.

Lemma Array_map_clean (args : list value) (w w' : World) strs :
  (forall x, PrimFloat.is_finite x = true -> clean (NumberToString x) = true) ->
  Array_map JSON_stringify args w = (Normal strs, w') ->
  Forall (fun s => clean s = true) (map join_element strs).
Proof.
  intros Hnts. revert strs w'.
  induction args as [| arg rest IH]; intros strs w' H.
  - injection H as <- _. constructor.
  - rewrite Array_map_cons in H. unfold JSON_stringify at 1 in H.
    destruct (JSON.stringify NumberToString (heap w) arg) as [s | e] eqn:Hs;
      [| discriminate].
    destruct (Array_map JSON_stringify rest w) as [[ys | e] w''] eqn:Hrest;
      [| discriminate].
    injection H as <- _. simpl. constructor; [| exact (IH ys w'' eq_refl)].
    destruct s as [s |]; [| reflexivity].
    eapply stringify_clean; eassumption.
Qed.

(** X1.  Whatever is logged, a call of [console.log] or [console.error]
    that forwards anything forwards one message, the channel prefix and
    a body closed by a line feed, and the body holds no line feed or
    other control character, provided the engine's rendering of finite
    numbers holds none: a line feed inside a logged string or key
    reaches the host escaped. *)
Theorem console_forwards_single_lines (args : list value) (w : World) :
  (forall x, PrimFloat.is_finite x = true -> clean (NumberToString x) = true) ->
  (forwarded (snd (console.log args w)) = forwarded w
   \/ exists body,
       clean body = true
       /\ forwarded (snd (console.log args w))
          = (forwarded w
             ++ [Print ("[out]: " ++ body ++ String line_feed "") false])%list)
  /\ (forwarded (snd (console.error args w)) = forwarded w
      \/ exists body,
          clean body = true
          /\ forwarded (snd (console.error args w))
             = (forwarded w
                ++ [Print ("[err]: " ++ body ++ String line_feed "") true])%list).
Proof.
  intros Hnts.
  destruct (argsToMessage_reads_heap (heap w) args) as [r Hr].
  specialize (Hr w eq_refl).
  destruct (console_forwarded_of_message args w r Hr) as [Hlog Herr].
  destruct r as [m | e].
  - assert (Hm : clean m = true).
    { rewrite argsToMessage_unfold in Hr.
      destruct (Array_map JSON_stringify args w) as [[strs | e] w'] eqn:Hmap;
        [| discriminate].
      injection Hr as <- _. unfold Array_join.
      apply clean_concat; [reflexivity |].
      eapply Array_map_clean; eassumption. }
    split; right; exists m; auto.
  - rewrite app_nil_r in Hlog, Herr. split; left; assumption.
Qed.

End FurtherConsole.

(** ** How the arguments of one logging call combine *)

Lemma string_app_assoc (a b c : string) : (a ++ b) ++ c = a ++ b ++ c.
Proof. induction a as [| x a IH]; simpl; [reflexivity | now rewrite IH]. Qed.

Lemma concat_app (sep : string) (l1 l2 : list string) :
  l1 <> [] -> l2 <> [] ->
  String.concat sep (l1 ++ l2)%list
  = String.concat sep l1 ++ sep ++ String.concat sep l2.
Proof.
  intros H1 H2. induction l1 as [| x l1 IH]; [contradiction |].
  destruct l1 as [| y l1].
  - destruct l2 as [| z l2]; [contradiction | reflexivity].
  - change (x ++ sep ++ String.concat sep ((y :: l1) ++ l2)%list
            = (x ++ sep ++ String.concat sep (y :: l1)) ++ sep ++ String.concat sep l2).
    rewrite IH by discriminate. now rewrite !string_app_assoc.
Qed.

Lemma concat_blank (sep : string) {A : Type} (l : list A) :
  sep = " " ->
  String.concat sep (map (fun _ => "") l) = spaces (length l - 1).
Proof.
  intros ->. induction l as [| a l IH]; [reflexivity |].
  destruct l as [| b l]; [reflexivity |].
  change (String.concat " " (map (fun _ : A => "") (a :: b :: l)))
    with ("" ++ " " ++ String.concat " " (map (fun _ : A => "") (b :: l))).
  rewrite IH. simpl. now rewrite Nat.sub_0_r.
Qed.

Section FurtherComposition.

Context `{RT : Runtime}.

Lemma Array_map_stringify_app (a b : list value) (w : World) xs ys :
  Array_map JSON_stringify a w = (Normal xs, w) ->
  Array_map JSON_stringify b w = (Normal ys, w) ->
  Array_map JSON_stringify (a ++ b)%list w = (Normal (xs ++ ys)%list, w).
Proof.
  revert xs. induction a as [| x a IH]; intros xs Ha Hb.
  - injection Ha as <-. exact Hb.
  - change ((x :: a) ++ b)%list with (x :: (a ++ b))%list.
    rewrite Array_map_cons in Ha |- *.
    unfold JSON_stringify at 1 in Ha. unfold JSON_stringify at 1.
    destruct (JSON.stringify NumberToString (heap w) x) as [y | e]; [| discriminate].
    destruct (Array_map JSON_stringify a w) as [[zs | e] w2] eqn:Hrest;
      [| discriminate].
    injection Ha as <- ->. rewrite (IH zs eq_refl Hb). reflexivity.
Qed.

Lemma Array_map_length (args : list value) (w w' : World) strs :
  Array_map JSON_stringify args w = (Normal strs, w') ->
  length strs = length args.
Proof.
  revert strs w'. induction args as [| arg rest IH]; intros strs w' H.
  - injection H as <- _. reflexivity.
  - rewrite Array_map_cons in H. unfold JSON_stringify at 1 in H.
    destruct (JSON.stringify NumberToString (heap w) arg); [| discriminate].
    destruct (Array_map JSON_stringify rest w) as [[ys | e] w''] eqn:Hrest;
      [| discriminate].
    injection H as <- _. simpl. f_equal. exact (IH ys w'' eq_refl).
Qed.

(** X2.  The message of a call is the messages of its arguments joined:
    when two non-empty argument lists each give a message, the list of
    both gives the first message, one space, and the second. *)
Theorem argsToMessage_concatenates (a b : list value) (w : World)
    (ma mb : string) :
  a <> [] -> b <> [] ->
  argsToMessage a w = (Normal ma, w) ->
  argsToMessage b w = (Normal mb, w) ->
  argsToMessage (a ++ b)%list w = (Normal (ma ++ " " ++ mb), w).
Proof.
  intros Ha Hb. rewrite !argsToMessage_unfold.
  destruct (Array_map JSON_stringify a w) as [[xs | e] wa] eqn:Hxs;
    [| discriminate].
  destruct (Array_map JSON_stringify b w) as [[ys | e] wb] eqn:Hys;
    [| discriminate].
  intros H1 H2. injection H1 as <- ->. injection H2 as <- ->.
  rewrite (Array_map_stringify_app a b w xs ys Hxs Hys).
  unfold Array_join. rewrite map_app, concat_app; [reflexivity | |].
  - pose proof (Array_map_length a w w xs Hxs). destruct xs, a; simpl in *;
      congruence.
  - pose proof (Array_map_length b w w ys Hys). destruct ys, b; simpl in *;
      congruence.
Qed.

(** X3.  When several arguments cannot be serialized, the call throws
    the error of the leftmost of them: the arguments are serialized in
    order and the first throw ends the call, with nothing forwarded. *)
Theorem logging_throws_the_first_error
    (pre post : list value) (v : value) (e : exception) (w : World) :
  Forall (fun a => exists s, JSON.stringify NumberToString (heap w) a = Normal s)
         pre ->
  JSON.stringify NumberToString (heap w) v = Throw e ->
  console.log (pre ++ v :: post)%list w = (Throw e, w)
  /\ console.error (pre ++ v :: post)%list w = (Throw e, w).
Proof.
  intros Hpre Hv.
  assert (Hmap : Array_map JSON_stringify (pre ++ v :: post)%list w = (Throw e, w)).
  { induction Hpre as [| a pre [s Hs] _ IH].
    - simpl app. rewrite Array_map_cons. unfold JSON_stringify at 1.
      rewrite Hv. reflexivity.
    - change ((a :: pre) ++ v :: post)%list with (a :: (pre ++ v :: post))%list.
      rewrite Array_map_cons. unfold JSON_stringify at 1.
      rewrite Hs, IH. reflexivity. }
  unfold console.log, console.error, bind.
  rewrite argsToMessage_unfold, Hmap. split; reflexivity.
Qed.

(** X4.  Arguments that are undefined, functions or symbols are logged
    as nothing at all: the line is the prefix, the separating spaces
    alone, and the line feed; the call does not throw for them. *)
Theorem logging_undefined_is_blank (args : list value) (w : World) :
  forallb serializes_to_undefined args = true ->
  forwarded (snd (console.log args w))
  = (forwarded w
     ++ [Print ("[out]: " ++ spaces (length args - 1) ++ String line_feed "")
               false])%list
  /\ forwarded (snd (console.error args w))
     = (forwarded w
        ++ [Print ("[err]: " ++ spaces (length args - 1) ++ String line_feed "")
                  true])%list.
Proof.
  intros H.
  assert (Hmap : Array_map JSON_stringify args w
                 = (Normal (map (fun _ => None) args), w)).
  { induction args as [| arg rest IH]; [reflexivity |].
    simpl in H. apply andb_true_iff in H as [Harg Hrest].
    rewrite Array_map_cons. unfold JSON_stringify at 1.
    rewrite (IH Hrest).
    destruct arg; try discriminate; reflexivity. }
  apply (console_forwarded_of_message args w
           (Normal (spaces (length args - 1)))).
  rewrite argsToMessage_unfold, Hmap. unfold Array_join.
  rewrite map_map. cbn [join_element].
  now rewrite (concat_blank " " args eq_refl).
Qed.

End FurtherComposition.

(** ** The history of requests, and the registry *)

Section FurtherBridge.

Context `{RT : Runtime}.

Lemma perform_forwards_at_most_once (op : Operation) (w : World) :
  exists new,
    forwarded (snd (perform op w)) = (forwarded w ++ new)%list
    /\ (if always_forwards op then 1 else 0) <= length new
    /\ length new <= (if is_registration op then 0 else 1).
Proof.
  destruct op; cbn [perform always_forwards is_registration].
  - destruct (argsToMessage_reads_heap (heap w) args) as [r Hr].
    destruct (console_forwarded_of_message args w r (Hr w eq_refl)) as [H _].
    eexists. split; [exact H |]. destruct r; simpl; lia.
  - destruct (argsToMessage_reads_heap (heap w) args) as [r Hr].
    destruct (console_forwarded_of_message args w r (Hr w eq_refl)) as [_ H].
    eexists. split; [exact H |]. destruct r; simpl; lia.
  - exists [CreateWindow title width height]. split; [| simpl; lia].
    unfold gpu.createWindow, core.ops.op_gpu_create_window.
    rewrite request_then_undefined. apply forwarded_request.
  - exists []. split; [now rewrite app_nil_r | simpl; lia].
  - exists []. split; [now rewrite app_nil_r | simpl; lia].
  - exists []. split; [now rewrite app_nil_r | simpl; lia].
  - exists [CreateShaderModule code].
    split; [apply forwarded_request | simpl; lia].
  - exists [CreateRenderPipeline shaderModuleId vertexEntry fragmentEntry].
    split; [apply forwarded_request | simpl; lia].
  - exists [DrawFrame pipelineId r g b a vertexCount instanceCount].
    split; [| simpl; lia].
    unfold gpu.drawFrame, core.ops.op_gpu_draw_frame.
    rewrite request_then_undefined. apply forwarded_request.
Qed.

(** X5.  Over any sequence of calls the requests forwarded to the host
    only grow at the end: what was forwarded before stays, in order.
    Each call of [createWindow], [createShaderModule],
    [createRenderPipeline] or [drawFrame] adds one request, also when
    the host raises; a registration adds none; a logging call adds at
    most one. *)
Theorem forwarded_is_append_only (ops : list Operation) (w : World) :
  exists new,
    forwarded (perform_all ops w) = (forwarded w ++ new)%list
    /\ length (filter always_forwards ops) <= length new
    /\ length new <= length (filter (fun op => negb (is_registration op)) ops).
Proof.
  revert w. induction ops as [| op rest IH]; intros w.
  - exists []. simpl. split; [now rewrite app_nil_r | lia].
  - destruct (perform_forwards_at_most_once op w) as (n1 & H1 & Hlo & Hhi).
    destruct (IH (snd (perform op w))) as (n2 & H2 & Hlo2 & Hhi2).
    exists (n1 ++ n2)%list. cbn [perform_all filter].
    rewrite H2, H1, app_assoc, length_app. split; [reflexivity |].
    destruct (always_forwards op), (is_registration op); simpl in *; lia.
Qed.

(** X6.  Registrations in different slots commute, and registering
    again the value a slot held gives back the world as it was: in
    particular, registering [null] empties a slot again. *)
Theorem registrations_commute_and_restore (f g : value) (w : World) :
  snd (gpu.onSetup f (snd (gpu.onDraw g w)))
  = snd (gpu.onDraw g (snd (gpu.onSetup f w)))
  /\ snd (gpu.onSetup f (snd (gpu.onResize g w)))
     = snd (gpu.onResize g (snd (gpu.onSetup f w)))
  /\ snd (gpu.onDraw f (snd (gpu.onResize g w)))
     = snd (gpu.onResize g (snd (gpu.onDraw f w)))
  /\ snd (gpu.onSetup (setup (__gpuCallbacks w)) (snd (gpu.onSetup f w))) = w
  /\ snd (gpu.onDraw (draw (__gpuCallbacks w)) (snd (gpu.onDraw f w))) = w
  /\ snd (gpu.onResize (resize (__gpuCallbacks w)) (snd (gpu.onResize f w))) = w.
Proof.
  destruct w as [[s d r] h hs fw]. repeat split.
Qed.

End FurtherBridge.

(** * Properties of the example script hello_triangle.ts *)

Section HelloTriangle.

Import hello_triangle.

Context `{RT : Runtime}.

(** One invocation of the draw handler: the variable and the slots are
    as before, and the one request it may make is the frame with the
    stored pipeline. *)
Lemma draw_handler_effect (s : Script) :
  pipeline (snd (draw_handler s)) = pipeline s
  /\ __gpuCallbacks (world (snd (draw_handler s))) = __gpuCallbacks (world s)
  /\ forwarded (world (snd (draw_handler s)))
     = (forwarded (world s)
        ++ match pipeline s with
           | Null => []
           | _ => [frame_request (pipeline s)]
           end)%list.
Proof.
  unfold draw_handler, and_then, read_pipeline. cbn [fst snd].
  assert (Hdraw :
    forall p,
      let r := (_ <~ call (gpu.drawFrame p (Number 0) (Number 1) (Number 0)
                                         (Number 1) (Number 3) (Number 1)) ;;
                pure Undefined) s in
      pipeline (snd r) = pipeline s
      /\ __gpuCallbacks (world (snd r)) = __gpuCallbacks (world s)
      /\ forwarded (world (snd r))
         = (forwarded (world s) ++ [frame_request p])%list).
  { intros p. unfold and_then, call, gpu.drawFrame, core.ops.op_gpu_draw_frame.
    cbv zeta. rewrite request_then_undefined.
    destruct (fst (host_op _ (host (world s)))); cbn [fst snd pipeline world];
      (split; [reflexivity |]; split;
       [apply slots_request | apply forwarded_request]). }
  destruct (pipeline s) eqn:Hp; try exact (Hdraw _).
  unfold pure. cbn [snd]. rewrite app_nil_r. auto.
Qed.

Lemma frames_effect (n : nat) : forall s : Script,
  pipeline (frames n s) = pipeline s
  /\ __gpuCallbacks (world (frames n s)) = __gpuCallbacks (world s)
  /\ forwarded (world (frames n s))
     = (forwarded (world s)
        ++ match pipeline s with
           | Null => []
           | _ => repeat (frame_request (pipeline s)) n
           end)%list.
Proof.
  induction n as [| n IH]; intros s.
  - cbn [frames repeat]. destruct (pipeline s); now rewrite app_nil_r.
  - cbn [frames repeat].
    destruct (draw_handler_effect s) as (Hp & Hs & Hf).
    destruct (IH (snd (draw_handler s))) as (Hp' & Hs' & Hf').
    rewrite Hp', Hs', Hf', Hp, Hs, Hf. repeat split.
    rewrite <- app_assoc. destruct (pipeline s); reflexivity.
Qed.

Lemma call_effect {A : Type} (m : M A) (s : Script) :
  fst (call m s) = fst (m (world s))
  /\ pipeline (snd (call m s)) = pipeline s
  /\ world (snd (call m s)) = snd (m (world s)).
Proof. unfold call. destruct (m (world s)). repeat split. Qed.

Lemma call_request (c : HostCall) (s : Script) answer hs :
  host_op c (host (world s)) = (answer, hs) ->
  call (request c) s
  = (answer,
     {| pipeline := pipeline s;
        world := {| __gpuCallbacks := __gpuCallbacks (world s);
                    heap := heap (world s);
                    host := hs;
                    forwarded := (forwarded (world s) ++ [c])%list |} |}).
Proof. intros H. unfold call, request. rewrite H. reflexivity. Qed.

(** X7.  Frame after frame the draw handler submits the same single
    request, the frame of the stored pipeline with the fixed colour and
    counts, or nothing at all while the variable is [null]; it never
    changes the variable or the slots. *)
Theorem frames_submit_the_stored_pipeline (n : nat) (s : Script) :
  pipeline (frames n s) = pipeline s
  /\ __gpuCallbacks (world (frames n s)) = __gpuCallbacks (world s)
  /\ forwarded (world (frames n s))
     = (forwarded (world s)
        ++ match pipeline s with
           | Null => []
           | _ => repeat (DrawFrame (pipeline s) (Number 0) (Number 1) (Number 0)
                                    (Number 1) (Number 3) (Number 1)) n
           end)%list.
Proof. exact (frames_effect n s). Qed.

Lemma setup_handler_created (s : Script) (shader created : value)
    (hs1 hs2 : HostState) :
  host_op (CreateShaderModule (String_ shaderCode)) (host (world s))
  = (Normal shader, hs1) ->
  host_op (CreateRenderPipeline shader (String_ "vs_main") (String_ "fs_main")) hs1
  = (Normal created, hs2) ->
  pipeline (snd (setup_handler s)) = created
  /\ __gpuCallbacks (world (snd (setup_handler s))) = __gpuCallbacks (world s)
  /\ forwarded (world (snd (setup_handler s)))
     = (forwarded (world s)
        ++ [CreateShaderModule (String_ shaderCode);
            CreateRenderPipeline shader (String_ "vs_main") (String_ "fs_main");
            Print ("[out]: "
                   ++ JSON.QuoteJSONString "Pipeline created successfully"
                   ++ String line_feed "") false])%list.
Proof.
  intros H1 H2. unfold setup_handler, and_then.
  change (gpu.createShaderModule (String_ shaderCode))
    with (request (CreateShaderModule (String_ shaderCode))).
  rewrite (call_request _ s _ _ H1).
  change (gpu.createRenderPipeline shader (String_ "vs_main") (String_ "fs_main"))
    with (request (CreateRenderPipeline shader (String_ "vs_main")
                                        (String_ "fs_main"))).
  erewrite call_request by exact H2.
  unfold assign_pipeline. cbn [pipeline world].
  match goal with
  | |- context [call ?m ?st] =>
      destruct (call_effect m st) as (_ & Hp & Hw);
      pose proof (log_literals [String_ "Pipeline created successfully"]
                    (world st) eq_refl) as Hf;
      pose proof (slots_argsToMessage_then
                    [String_ "Pipeline created successfully"]
                    (fun message =>
                       _ <- core.print ("[out]: " ++ message ++ String line_feed "")
                                       false ;;
                       ret Undefined)
                    (world st)) as Hs;
      destruct (call m st) as [[v | e] s'] eqn:Hcall
  end;
    unfold pure;
    cbn [fst snd pipeline world forwarded __gpuCallbacks heap host] in *;
    (split; [exact Hp |]; rewrite Hw; split;
     [ apply Hs; intros m w'; unfold core.print;
       rewrite request_then_undefined; apply slots_request
     | rewrite Hf, <- !app_assoc; reflexivity ]).
Qed.

Lemma call_request_then_undefined (c : HostCall) (s : Script) answer hs :
  host_op c (host (world s)) = (answer, hs) ->
  call (_ <- request c ;; ret Undefined) s
  = (match answer with
     | Normal _ => Normal Undefined
     | Throw e => Throw e
     end,
     {| pipeline := pipeline s;
        world := {| __gpuCallbacks := __gpuCallbacks (world s);
                    heap := heap (world s);
                    host := hs;
                    forwarded := (forwarded (world s) ++ [c])%list |} |}).
Proof.
  intros H. unfold call, bind, request. rewrite H. destruct answer; reflexivity.
Qed.

(** X8.  When the host creates the shader module and the pipeline, the
    setup handler stores the pipeline the host returned, and forwards
    the two creation requests (the second with the shader handle the
    first returned) and then the log line; every frame after that
    submits that pipeline, unless what the host returned is [null]. *)
Theorem setup_then_frames (s : Script) (shader created : value)
    (hs1 hs2 : HostState) (n : nat) :
  host_op (CreateShaderModule (String_ shaderCode)) (host (world s))
  = (Normal shader, hs1) ->
  host_op (CreateRenderPipeline shader (String_ "vs_main") (String_ "fs_main")) hs1
  = (Normal created, hs2) ->
  pipeline (snd (setup_handler s)) = created
  /\ forwarded (world (frames n (snd (setup_handler s))))
     = (forwarded (world s)
        ++ [CreateShaderModule (String_ shaderCode);
            CreateRenderPipeline shader (String_ "vs_main") (String_ "fs_main");
            Print ("[out]: "
                   ++ JSON.QuoteJSONString "Pipeline created successfully"
                   ++ String line_feed "") false]
        ++ match created with
           | Null => []
           | _ => repeat (DrawFrame created (Number 0) (Number 1) (Number 0)
                                    (Number 1) (Number 3) (Number 1)) n
           end)%list.
Proof.
  intros H1 H2.
  destruct (setup_handler_created s shader created hs1 hs2 H1 H2) as (Hp & _ & Hf).
  destruct (frames_effect n (snd (setup_handler s))) as (_ & _ & Hn).
  split; [exact Hp |].
  rewrite Hn, Hf, Hp, <- app_assoc. reflexivity.
Qed.




(** X10.  The module body requests the window first and registers the
    three handlers only when that request returns: if the host refuses
    the window, the script stops with the host's error and all three
    slots are as they were.  Either way exactly one request, the window
    with its title and size, is forwarded, and the variable is [null]. *)
Theorem main_registers_after_window (s : Script) :
  pipeline (snd (main s)) = Null
  /\ forwarded (world (snd (main s)))
     = (forwarded (world s)
        ++ [CreateWindow (String_ "Hello Triangle") (Number 800) (Number 600)])%list
  /\ match fst (host_op (CreateWindow (String_ "Hello Triangle") (Number 800)
                                      (Number 600)) (host (world s))) with
     | Normal _ =>
         fst (main s) = Normal Undefined
         /\ __gpuCallbacks (world (snd (main s)))
            = {| setup := setup_fn; draw := draw_fn; resize := resize_fn |}
     | Throw e =>
         fst (main s) = Throw e
         /\ __gpuCallbacks (world (snd (main s))) = __gpuCallbacks (world s)
     end.
Proof.
  destruct (host_op (CreateWindow (String_ "Hello Triangle") (Number 800)
                                  (Number 600)) (host (world s)))
    as [answer hs] eqn:H.
  unfold main, and_then, assign_pipeline.
  change (gpu.createWindow (String_ "Hello Triangle") (Number 800) (Number 600))
    with (_ <- request (CreateWindow (String_ "Hello Triangle") (Number 800)
                                     (Number 600)) ;;
          ret Undefined).
  erewrite call_request_then_undefined by exact H.
  destruct answer as [v | e]; repeat split.
Qed.

(** X11.  The resize handler logs one line, the text [Resized to WxH]
    as a quoted string, and touches neither the variable nor the slots:
    the frames after a resize submit what they submitted before it. *)
Theorem resize_logs_and_leaves_drawing (width height : float) (s : Script)
    (n : nat) :
  pipeline (snd (resize_handler width height s)) = pipeline s
  /\ __gpuCallbacks (world (snd (resize_handler width height s)))
     = __gpuCallbacks (world s)
  /\ forwarded (world (frames n (snd (resize_handler width height s))))
     = (forwarded (world s)
        ++ [Print ("[out]: "
                   ++ JSON.QuoteJSONString
                        ("Resized to " ++ Number_toString width
                         ++ "x" ++ Number_toString height)
                   ++ String line_feed "") false]
        ++ match pipeline s with
           | Null => []
           | _ => repeat (DrawFrame (pipeline s) (Number 0) (Number 1) (Number 0)
                                    (Number 1) (Number 3) (Number 1)) n
           end)%list.
Proof.
  destruct (frames_effect n (snd (resize_handler width height s))) as (_ & _ & Hn).
  assert (H : pipeline (snd (resize_handler width height s)) = pipeline s
              /\ __gpuCallbacks (world (snd (resize_handler width height s)))
                 = __gpuCallbacks (world s)
              /\ forwarded (world (snd (resize_handler width height s)))
                 = (forwarded (world s)
                    ++ [Print ("[out]: "
                               ++ JSON.QuoteJSONString
                                    ("Resized to " ++ Number_toString width
                                     ++ "x" ++ Number_toString height)
                               ++ String line_feed "") false])%list).
  { unfold resize_handler, and_then.
    match goal with
    | |- context [call ?m s] =>
        destruct (call_effect m s) as (_ & Hp & Hw);
        pose proof (log_literals
                      [String_ ("Resized to " ++ Number_toString width
                                ++ "x" ++ Number_toString height)]
                      (world s) eq_refl) as Hf;
        pose proof (slots_argsToMessage_then
                      [String_ ("Resized to " ++ Number_toString width
                                ++ "x" ++ Number_toString height)]
                      (fun message =>
                         _ <- core.print ("[out]: " ++ message
                                          ++ String line_feed "") false ;;
                         ret Undefined)
                      (world s)) as Hs;
        destruct (call m s) as [[v | e] s'] eqn:Hcall
    end;
      unfold pure; cbn [fst snd] in *;
      (split; [exact Hp |]; rewrite Hw; split;
       [ apply Hs; intros m w'; unfold core.print;
         rewrite request_then_undefined; apply slots_request
       | rewrite Hf; reflexivity ]). }
  destruct H as (Hp & Hs & Hf).
  split; [exact Hp |]. split; [exact Hs |].
  rewrite Hn, Hf, Hp, <- app_assoc. reflexivity.
Qed.

End HelloTriangle.

(** ** The further properties at concrete inputs *)

Lemma console_forwards_single_lines_witness :
  (forall x, PrimFloat.is_finite x = true -> clean (example_NumberToString x) = true)
  /\ (forwarded (snd (console.log [String_ (String line_feed "x"); Number 3]
                        example_world))
      = forwarded example_world
      \/ exists body,
          clean body = true
          /\ forwarded (snd (console.log [String_ (String line_feed "x"); Number 3]
                               example_world))
             = (forwarded example_world
                ++ [Print ("[out]: " ++ body ++ String line_feed "") false])%list)
  /\ (forwarded (snd (console.error [String_ (String line_feed "x"); Number 3]
                        example_world))
      = forwarded example_world
      \/ exists body,
          clean body = true
          /\ forwarded (snd (console.error [String_ (String line_feed "x"); Number 3]
                               example_world))
             = (forwarded example_world
                ++ [Print ("[err]: " ++ body ++ String line_feed "") true])%list).
Proof.
  split; [intros x _; apply example_NumberToString_clean |].
  apply (console_forwards_single_lines (RT := example_runtime)
           [String_ (String line_feed "x"); Number 3] example_world).
  intros x _. apply example_NumberToString_clean.
Defined.

Lemma argsToMessage_concatenates_witness :
  [String_ "a"] <> []
  /\ [Number 1; Null] <> []
  /\ argsToMessage [String_ "a"] example_world
     = (Normal (JSON.QuoteJSONString "a"), example_world)
  /\ argsToMessage [Number 1; Null] example_world
     = (Normal "1 null", example_world)
  /\ argsToMessage ([String_ "a"] ++ [Number 1; Null])%list example_world
     = (Normal (JSON.QuoteJSONString "a" ++ " " ++ "1 null"), example_world).
Proof.
  split; [discriminate |]. split; [discriminate |].
  split; [reflexivity |]. split; [reflexivity |].
  apply (argsToMessage_concatenates (RT := example_runtime)
           [String_ "a"] [Number 1; Null] example_world
           (JSON.QuoteJSONString "a") "1 null");
    try discriminate; reflexivity.
Defined.

Lemma logging_throws_the_first_error_witness :
  Forall (fun a => exists s,
              JSON.stringify example_NumberToString (heap cyclic_world) a = Normal s)
         [String_ "x"]
  /\ JSON.stringify example_NumberToString (heap cyclic_world) (BigInt 1)
     = Throw (TypeError JSON.bigint_message)
  /\ console.log ([String_ "x"] ++ BigInt 1 :: [Object 0])%list cyclic_world
     = (Throw (TypeError JSON.bigint_message), cyclic_world)
  /\ console.error ([String_ "x"] ++ BigInt 1 :: [Object 0])%list cyclic_world
     = (Throw (TypeError JSON.bigint_message), cyclic_world).
Proof.
  assert (H : Forall (fun a => exists s,
                          JSON.stringify example_NumberToString (heap cyclic_world) a
                          = Normal s)
                     [String_ "x"]).
  { constructor; [| constructor]. eexists. reflexivity. }
  split; [exact H |]. split; [reflexivity |].
  exact (logging_throws_the_first_error (RT := example_runtime)
           [String_ "x"] [Object 0] (BigInt 1) (TypeError JSON.bigint_message)
           cyclic_world H eq_refl).
Defined.

Lemma logging_undefined_is_blank_witness :
  forallb serializes_to_undefined [Undefined; Function 0; Symbol "s"] = true
  /\ forwarded (snd (console.log [Undefined; Function 0; Symbol "s"] example_world))
     = (forwarded example_world
        ++ [Print ("[out]: " ++ spaces 2 ++ String line_feed "") false])%list
  /\ forwarded (snd (console.error [Undefined; Function 0; Symbol "s"] example_world))
     = (forwarded example_world
        ++ [Print ("[err]: " ++ spaces 2 ++ String line_feed "") true])%list.
Proof.
  split; [reflexivity |].
  apply (logging_undefined_is_blank (RT := example_runtime)
           [Undefined; Function 0; Symbol "s"] example_world).
  reflexivity.
Defined.

Lemma setup_then_frames_witness :
  host_op (CreateShaderModule (String_ hello_triangle.shaderCode))
          (host (hello_triangle.world example_script))
  = (Normal (Number 1), {| next_handle := 2; shader_modules := [1%float] |})
  /\ host_op (CreateRenderPipeline (Number 1) (String_ "vs_main") (String_ "fs_main"))
             {| next_handle := 2; shader_modules := [1%float] |}
     = (Normal (Number 2), {| next_handle := 3; shader_modules := [1%float] |})
  /\ hello_triangle.pipeline (snd (hello_triangle.setup_handler example_script))
     = Number 2
  /\ forwarded
       (hello_triangle.world
          (hello_triangle.frames 2
             (snd (hello_triangle.setup_handler example_script))))
     = (forwarded (hello_triangle.world example_script)
        ++ [CreateShaderModule (String_ hello_triangle.shaderCode);
            CreateRenderPipeline (Number 1) (String_ "vs_main") (String_ "fs_main");
            Print ("[out]: "
                   ++ JSON.QuoteJSONString "Pipeline created successfully"
                   ++ String line_feed "") false]
        ++ repeat (DrawFrame (Number 2) (Number 0) (Number 1) (Number 0)
                             (Number 1) (Number 3) (Number 1)) 2)%list.
Proof.
  split; [reflexivity |]. split; [reflexivity |].
  exact (setup_then_frames (RT := example_runtime) example_script
           (Number 1) (Number 2)
           {| next_handle := 2; shader_modules := [1%float] |}
           {| next_handle := 3; shader_modules := [1%float] |}
           2 eq_refl eq_refl).
Defined.


(** ** How a logging call completes *)

Section FurtherCompletion.

Context `{RT : Runtime}.





End FurtherCompletion.

